(** * A shallow embedding of [java_type_checker/expressions.py]

    The Python module defines an AST for simple Java expressions
    together with two methods, [static_type] and [check_types].  The
    embedding keeps the class names of the source, turns the class
    hierarchy into one inductive type, and turns "returns nothing or
    raises" into an explicit result type carrying the raised exception. *)

From Stdlib Require Import String Ascii List Bool Arith Lia DecimalString.
Import ListNotations.
Local Open Scope list_scope.
Local Open Scope string_scope.

Set Warnings "-register-all".

(** ** Python exceptions *)

Module Py.

(** The exception classes that the module can raise.  [JavaTypeError]
    is imported from [.types]; the three classes after it are declared
    at the bottom of [expressions.py] as its subclasses.
    [AttributeError] and [NotImplementedError] are Python built-ins. *)
Inductive exn_class : Type :=
| JavaTypeError
| JavaTypeMismatchError
| JavaArgumentCountError
| JavaIllegalInstantiationError
| AttributeError
| NotImplementedError.

Definition exn_class_eqb (a b : exn_class) : bool :=
  match a, b with
  | JavaTypeError, JavaTypeError
  | JavaTypeMismatchError, JavaTypeMismatchError
  | JavaArgumentCountError, JavaArgumentCountError
  | JavaIllegalInstantiationError, JavaIllegalInstantiationError
  | AttributeError, AttributeError
  | NotImplementedError, NotImplementedError => true
  | _, _ => false
  end.

(** [isinstance(e, JavaTypeError)]: the class itself or a subclass. *)
Definition is_java_type_error (c : exn_class) : bool :=
  match c with
  | JavaTypeError
  | JavaTypeMismatchError
  | JavaArgumentCountError
  | JavaIllegalInstantiationError => true
  | AttributeError | NotImplementedError => false
  end.

(** A proper subclass of [JavaTypeError], one of the three
    [class X(JavaTypeError): pass] declarations. *)
Definition is_specialization (c : exn_class) : bool :=
  is_java_type_error c && negb (exn_class_eqb c JavaTypeError).

Record exception : Type := Exception { cls : exn_class; message : string }.

(** The outcome of running a piece of Python: a value, or a raised
    exception that unwinds to the caller. *)
Inductive result (A : Type) : Type :=
| Return (a : A)
| Raise (e : exception).

Arguments Return {A} a.
Arguments Raise {A} e.

Definition bind {A B : Type} (m : result A) (k : A -> result B) : result B :=
  match m with
  | Return a => k a
  | Raise e => Raise e
  end.

Definition raise {A : Type} (c : exn_class) (msg : string) : result A :=
  Raise (Exception c msg).

Definition raises {A : Type} (m : result A) : bool :=
  match m with Return _ => false | Raise _ => true end.

(** The contract in the docstring of [JavaExpression.check_types]:
    "Raises a JavaTypeError if there is an error. If there is no error,
    this method has no effect and returns nothing." *)
Definition honours_contract {A : Type} (m : result A) : bool :=
  match m with
  | Return _ => true
  | Raise e => is_java_type_error (cls e)
  end.

(** What Python raises for [None.name] and for [None.is_subtype_of(..)]. *)
Definition none_attribute_error (e : exception) : Prop :=
  e = Exception AttributeError "'NoneType' object has no attribute 'name'"
  \/ e = Exception AttributeError
           "'NoneType' object has no attribute 'is_subtype_of'".

(** [for x in xs: f(x)] where [f] returns nothing: stops at the first
    exception. *)
Section ForEach.
Context {A : Type} (f : A -> result unit).

Fixpoint for_each (xs : list A) : result unit :=
  match xs with
  | [] => Return tt
  | x :: xs' => bind (f x) (fun _ => for_each xs')
  end.
End ForEach.

(** [[f(x) for x in xs]], evaluated left to right. *)
Section Collect.
Context {A B : Type} (f : A -> result B).

Fixpoint collect (xs : list A) : result (list B) :=
  match xs with
  | [] => Return []
  | x :: xs' =>
      bind (f x) (fun y => bind (collect xs') (fun ys => Return (y :: ys)))
  end.
End Collect.

(** [str(n)] for a non-negative integer. *)
Definition str (n : nat) : string := NilEmpty.string_of_uint (Nat.to_uint n).

(** [sep.join(parts)] *)
Definition join (sep : string) (parts : list string) : string :=
  String.concat sep parts.

End Py.

Import Py.

Declare Scope py_scope.
Delimit Scope py_scope with py.
Notation "x <- m ;; k" := (bind m (fun x => k))
  (at level 61, m at next level, right associativity) : py_scope.
Notation "m ;; k" := (bind m (fun _ => k))
  (at level 61, right associativity) : py_scope.
Local Open Scope py_scope.

(** ** The type universe

    Modelled from the spec: [java_type_checker/types.py] is imported by
    the module but is not part of the sources at hand, so the checker is
    stated over the interface that [expressions.py] uses: attribute
    [name], method [is_subtype_of], method [method_named] returning a
    method or [None], attributes [constructor] and [is_instantiable], and
    the singleton [JavaBuiltInTypes.NULL]. *)

Record JavaMethod (T : Type) : Type :=
  { parameter_types : list T }.

Record JavaConstructor (T : Type) : Type :=
  { param_types : list T }.

Arguments parameter_types {T} _.
Arguments param_types {T} _.

Class TypeUniverse : Type :=
  { JavaType : Type;
    name : JavaType -> string;
    is_subtype_of : JavaType -> JavaType -> bool;
    method_named : JavaType -> string -> option (JavaMethod JavaType);
    constructor : JavaType -> JavaConstructor JavaType;
    is_instantiable : JavaType -> bool;
    NULL : JavaType }.

(** ** The expression AST *)

Section Expressions.

Context {U : TypeUniverse}.

(** [JavaVariable]: [name] (str) and [declared_type] (JavaType).  The
    field is called [var_name] here because [name] is the attribute of
    a type. *)
Record JavaVariable : Type :=
  { var_name : string; declared_type : JavaType }.

(** One constructor per concrete class of the module.  The [lhs] of an
    assignment is a [JavaVariable], as the class docstring says (and
    [check_types] reads [self.lhs.name]). *)
Inductive JavaExpression : Type :=
| JavaVariableExpr (v : JavaVariable)
| JavaLiteral (value : string) (type : JavaType)
| JavaNullLiteral
| JavaAssignment (lhs : JavaVariable) (rhs : JavaExpression)
| JavaMethodCall (receiver : JavaExpression) (method_name : string)
                 (args : list JavaExpression)
| JavaConstructorCall (instantiated_type : JavaType)
                      (args : list JavaExpression).

(** [static_type].  [JavaMethodCall] does not override the method, so
    it inherits [JavaExpression.static_type], whose body is [pass]: the
    call returns [None]. *)
Definition static_type (e : JavaExpression) : option JavaType :=
  match e with
  | JavaVariableExpr v => Some (declared_type v)
  | JavaLiteral _ type => Some type
  | JavaNullLiteral => Some NULL
  | JavaAssignment lhs _ => Some (declared_type lhs)
  | JavaMethodCall _ _ _ => None
  | JavaConstructorCall instantiated_type _ => Some instantiated_type
  end.

(** Truth value of what [static_type()] returns, as [not ...] takes it:
    [None] is false; a type is an instance of a class of [types], which
    the interface above gives neither a [__bool__] nor a [__len__], so it
    is true like any plain object. *)
Definition truthy (v : option JavaType) : bool :=
  match v with
  | None => false
  | Some _ => true
  end.

(** [v.name] and [v.is_subtype_of(other)] where [v] may be [None]. *)
Definition attr_name (v : option JavaType) : result string :=
  match v with
  | Some t => Return (name t)
  | None => raise AttributeError "'NoneType' object has no attribute 'name'"
  end.

Definition call_is_subtype_of (v : option JavaType) (other : JavaType)
  : result bool :=
  match v with
  | Some t => Return (is_subtype_of t other)
  | None =>
      raise AttributeError "'NoneType' object has no attribute 'is_subtype_of'"
  end.

(** *** [JavaAssignment.check_types] *)
Definition check_assignment (lhs : JavaVariable) (rhs : JavaExpression)
  : result unit :=
  let lhs_type := declared_type lhs in
  let rhs_type := static_type rhs in
  ok <- call_is_subtype_of rhs_type lhs_type ;;
  if negb ok then
    rhs_name <- attr_name rhs_type ;;
    raise JavaTypeMismatchError
      ("Cannot assign " ++ rhs_name ++ " to variable " ++ var_name lhs
         ++ " of type " ++ name lhs_type)
  else Return tt.

(** *** [JavaMethodCall.check_types] *)

(** The [raise JavaTypeMismatchError(f"...")] statement of the loop:
    the f-string is built first, and it reads [at.static_type().name]
    for every argument. *)
Definition method_mismatch (receiver_type : JavaType) (method_name : string)
    (method : JavaMethod JavaType) (args : list JavaExpression)
  : result unit :=
  got <- collect (fun at_ => attr_name (static_type at_)) args ;;
  raise JavaTypeMismatchError
    (name receiver_type ++ "." ++ method_name
       ++ "() expects arguments of type ("
       ++ join ", " (map name (parameter_types method))
       ++ "), but got (" ++ join ", " got ++ ")").

(** [for arg, param_type in zip(self.args, method.parameter_types)] *)
Fixpoint check_method_args (on_mismatch : result unit)
    (pairs : list (JavaExpression * JavaType)) : result unit :=
  match pairs with
  | [] => Return tt
  | (arg, param_type) :: rest =>
      let arg_type := static_type arg in
      ok <- call_is_subtype_of arg_type param_type ;;
      if negb ok then on_mismatch
      else check_method_args on_mismatch rest
  end.

Definition check_method_call (receiver : JavaExpression)
    (method_name : string) (args : list JavaExpression) : result unit :=
  if negb (truthy (static_type receiver)) then Return tt
  else
    match static_type receiver with
    | None =>
        raise JavaTypeError "Receiver's type is not defined for method call."
    | Some receiver_type =>
        match method_named receiver_type method_name with
        | None =>
            raise JavaTypeError
              (name receiver_type ++ " has no method named " ++ method_name)
        | Some method =>
            let expected_count := length (parameter_types method) in
            let actual_count := length args in
            if negb (Nat.eqb actual_count expected_count) then
              raise JavaArgumentCountError
                ("Wrong number of arguments for " ++ name receiver_type
                   ++ "." ++ method_name ++ "(): expected "
                   ++ str expected_count ++ ", got " ++ str actual_count)
            else
              check_method_args
                (method_mismatch receiver_type method_name method args)
                (combine args (parameter_types method))
        end
    end.

(** *** [JavaConstructorCall.check_types] *)

(** The second loop of the method, "Check the argument types". *)
Fixpoint check_constructor_args (instantiated_type : JavaType)
    (pairs : list (JavaExpression * JavaType)) : result unit :=
  match pairs with
  | [] => Return tt
  | (arg, param_type) :: rest =>
      let arg_type := static_type arg in
      ok <- call_is_subtype_of arg_type param_type ;;
      if negb ok then
        arg_name <- attr_name arg_type ;;
        raise JavaTypeMismatchError
          (name instantiated_type ++ " constructor expects arguments of type "
             ++ name param_type ++ ", but got " ++ arg_name)
      else check_constructor_args instantiated_type rest
  end.

(** Everything before the final loop. *)
Definition check_constructor_signature (instantiated_type : JavaType)
    (args : list JavaExpression) : result unit :=
  if negb (is_instantiable instantiated_type) then
    raise JavaIllegalInstantiationError
      (name instantiated_type ++ " is not instantiable")
  else
    let constructor := constructor instantiated_type in
    if negb (Nat.eqb (length args) (length (param_types constructor))) then
      raise JavaArgumentCountError
        ("Wrong number of arguments for " ++ name instantiated_type
           ++ " constructor: expected " ++ str (length (param_types constructor))
           ++ ", got " ++ str (length args))
    else
      check_constructor_args instantiated_type
        (combine args (param_types constructor)).

(** *** [check_types], by dynamic dispatch on the class of the node *)
Fixpoint check_types (e : JavaExpression) : result unit :=
  match e with
  | JavaVariableExpr _ => Return tt
  | JavaLiteral _ _ => Return tt
  | JavaNullLiteral => Return tt
  | JavaAssignment lhs rhs => check_assignment lhs rhs
  | JavaMethodCall receiver method_name args =>
      check_method_call receiver method_name args
  | JavaConstructorCall instantiated_type args =>
      check_constructor_signature instantiated_type args ;;
      for_each check_types args
  end.

(** *** [_names], the module's helper for error messages

    ["(" + ", ".join([e.name for e in named_things]) + ")"], here on a
    list of types. *)
Definition _names (named_things : list JavaType) : string :=
  "(" ++ join ", " (map name named_things) ++ ")".

(** *** Vocabulary for the statements below *)

(** An argument list fits a parameter list when both have the same
    length and, position by position, the argument has a static type
    and that type is a subtype of the parameter type. *)
Definition fits (arg : JavaExpression) (param_type : JavaType) : Prop :=
  exists t, static_type arg = Some t /\ is_subtype_of t param_type = true.

Definition signature_matches (args : list JavaExpression)
    (params : list JavaType) : Prop :=
  Forall2 fits args params.

(** Every expression whose static type [check_types] reads has one:
    the right-hand side of an assignment, the arguments of a method
    call, and the arguments of a constructor call, the latter all the
    way down since the constructor call checks them in turn. *)
Fixpoint operands_typed (e : JavaExpression) : bool :=
  match e with
  | JavaVariableExpr _ | JavaLiteral _ _ | JavaNullLiteral => true
  | JavaAssignment _ rhs => truthy (static_type rhs)
  | JavaMethodCall _ _ args =>
      forallb (fun a => truthy (static_type a)) args
  | JavaConstructorCall _ args =>
      forallb (fun a => truthy (static_type a) && operands_typed a) args
  end.

End Expressions.

Arguments JavaVariable {U}.
Arguments JavaExpression {U}.

(** ** A small type universe to run the checker on

    Modelled from the spec: the types of the scenarios listed with the
    testable properties ([int], [String], [Object], [Foo],
    [AbstractThing] and the null type), since [types.py] and the test
    fixtures are not part of the sources at hand.  [Foo] has a
    one-argument constructor and two methods, [greet(String)] and
    [combine(String, String)]; it has no method [bar]. *)

Module Sample.

Inductive ty : Type := INT | STRING | OBJECT | FOO | ABSTRACT_THING | NULL_TYPE.

Definition ty_eqb (a b : ty) : bool :=
  match a, b with
  | INT, INT | STRING, STRING | OBJECT, OBJECT | FOO, FOO
  | ABSTRACT_THING, ABSTRACT_THING | NULL_TYPE, NULL_TYPE => true
  | _, _ => false
  end.

Definition is_reference (a : ty) : bool :=
  match a with INT => false | _ => true end.

Definition ty_name (a : ty) : string :=
  match a with
  | INT => "int"
  | STRING => "String"
  | OBJECT => "Object"
  | FOO => "Foo"
  | ABSTRACT_THING => "AbstractThing"
  | NULL_TYPE => "null"
  end.

(** Reflexive; the null type below every reference type; every
    reference type below [Object]; [Foo] below [AbstractThing]. *)
Definition ty_is_subtype_of (a b : ty) : bool :=
  ty_eqb a b
  || match a, b with
     | NULL_TYPE, _ => is_reference b
     | FOO, ABSTRACT_THING => true
     | _, OBJECT => is_reference a
     | _, _ => false
     end.

Definition ty_method_named (a : ty) (m : string) : option (JavaMethod ty) :=
  match a with
  | FOO =>
      if String.eqb m "greet" then Some {| parameter_types := [STRING] |}
      else if String.eqb m "combine" then
        Some {| parameter_types := [STRING; STRING] |}
      else None
  | _ => None
  end.

Definition ty_constructor (a : ty) : JavaConstructor ty :=
  match a with
  | FOO => {| param_types := [INT] |}
  | _ => {| param_types := [] |}
  end.

Definition ty_is_instantiable (a : ty) : bool :=
  match a with
  | STRING | OBJECT | FOO => true
  | INT | ABSTRACT_THING | NULL_TYPE => false
  end.

#[export] Instance universe : TypeUniverse :=
  {| JavaType := ty;
     name := ty_name;
     is_subtype_of := ty_is_subtype_of;
     method_named := ty_method_named;
     constructor := ty_constructor;
     is_instantiable := ty_is_instantiable;
     NULL := NULL_TYPE |}.

Definition foo : JavaExpression :=
  JavaVariableExpr {| var_name := "foo"; declared_type := FOO |}.

Definition x_int : JavaVariable := {| var_name := "x"; declared_type := INT |}.
Definition o_object : JavaVariable :=
  {| var_name := "o"; declared_type := OBJECT |}.
Definition s_string : JavaVariable :=
  {| var_name := "s"; declared_type := STRING |}.

Definition hello : JavaExpression := JavaLiteral "hello" STRING.
Definition one : JavaExpression := JavaLiteral "1" INT.
Definition two : JavaExpression := JavaLiteral "2" INT.

(** [foo.greet("hello")], an expression without a static type. *)
Definition foo_greet : JavaExpression := JavaMethodCall foo "greet" [hello].

(** [new AbstractThing()] and [new Foo(1, 2)], two ill-typed
    expressions whose static type is nevertheless defined. *)
Definition new_abstract : JavaExpression := JavaConstructorCall ABSTRACT_THING [].
Definition new_foo_1_2 : JavaExpression := JavaConstructorCall FOO [one; two].

End Sample.

(** ** Auxiliary facts about the Python primitives *)

Section ForEachFacts.
Context {A : Type} (f : A -> result unit).

Lemma for_each_ok_iff (xs : list A) :
  for_each f xs = Return tt <-> Forall (fun x => f x = Return tt) xs.
Proof.
  induction xs as [|x xs IH]; simpl.
  - split; [constructor | reflexivity].
  - split.
    + destruct (f x) as [[]|e] eqn:E; simpl; [|discriminate].
      intros H. constructor; [exact E | now apply IH].
    + intros H. inversion H as [|? ? Hx Hxs]; subst.
      rewrite Hx. simpl. now apply IH.
Qed.

Lemma for_each_first_failure (pre post : list A) (x : A) (e : exception) :
  Forall (fun y => f y = Return tt) pre ->
  f x = Raise e ->
  for_each f (pre ++ x :: post)%list = Raise e.
Proof.
  intros Hpre Hx. induction Hpre as [|y pre Hy _ IH]; simpl.
  - now rewrite Hx.
  - now rewrite Hy.
Qed.

Lemma for_each_some_failure (xs : list A) (x : A) (e : exception) :
  In x xs -> f x = Raise e -> raises (for_each f xs) = true.
Proof.
  intros Hin Hx. induction xs as [|y ys IH]; simpl in *; [contradiction|].
  destruct (f y) as [[]|e'] eqn:E; simpl; [|reflexivity].
  destruct Hin as [->|Hin]; [congruence | now apply IH].
Qed.

End ForEachFacts.

(** The text of the error for a missing method always contains the
    words [has no method named], so it is never the text of the
    "receiver" error. *)
Lemma no_method_text_differs (a b : string) :
  a ++ " has no method named " ++ b
  <> "Receiver's type is not defined for method call.".
Proof.
  intros H.
  repeat (destruct a as [|? a]; simpl in H;
          [discriminate H | injection H as _ H]).
  destruct a; simpl in H; discriminate H.
Qed.

(** ** Properties of the checker *)

Section Properties.

Context {U : TypeUniverse}.

Lemma signature_matches_length args params :
  signature_matches args params -> length args = length params.
Proof. induction 1; simpl; congruence. Qed.

Lemma truthy_defined (v : option JavaType) : truthy v = true <-> v <> None.
Proof. destruct v; simpl; split; congruence. Qed.

(** *** The method-call loop *)

Lemma check_method_args_fit on_mismatch args params :
  signature_matches args params ->
  check_method_args on_mismatch (combine args params) = Return tt.
Proof.
  induction 1 as [|a p args params (t & Ht & Hsub) _ IH]; simpl.
  - reflexivity.
  - rewrite Ht. simpl. rewrite Hsub. simpl. exact IH.
Qed.

Lemma check_method_args_mismatch on_mismatch args tys :
  map static_type args = map Some tys ->
  forall params i t p,
    length args = length params ->
    nth_error tys i = Some t ->
    nth_error params i = Some p ->
    is_subtype_of t p = false ->
    check_method_args on_mismatch (combine args params) = on_mismatch.
Proof.
  revert tys. induction args as [|a args IH]; intros [|t0 tys] Hty;
    try discriminate Hty.
  - intros params [|i] t p _ Hi; discriminate Hi.
  - simpl in Hty. injection Hty as Ha Hrest.
    intros [|p0 params] i t p Hlen Hi Hp Hsub; [discriminate Hlen|].
    simpl. rewrite Ha. simpl.
    destruct (is_subtype_of t0 p0) eqn:E0; simpl; [|reflexivity].
    destruct i as [|i]; simpl in Hi, Hp.
    + injection Hi as ->. injection Hp as ->. congruence.
    + simpl in Hlen. injection Hlen as Hlen.
      exact (IH tys Hrest params i t p Hlen Hi Hp Hsub).
Qed.

Lemma check_method_args_same_types on_mismatch args args' params :
  map static_type args' = map static_type args ->
  check_method_args on_mismatch (combine args' params)
  = check_method_args on_mismatch (combine args params).
Proof.
  revert args' params. induction args as [|a args IH]; intros [|a' args'] params H;
    try discriminate H; [reflexivity|].
  simpl in H. injection H as Ha Hrest.
  destruct params as [|p params]; [reflexivity|].
  simpl. rewrite Ha.
  destruct (call_is_subtype_of (static_type a) p) as [[]|e]; simpl;
    [apply IH; assumption | reflexivity | reflexivity].
Qed.

Lemma collect_names_defined args tys :
  map static_type args = map Some tys ->
  collect (fun at_ => attr_name (static_type at_)) args
  = Return (map name tys).
Proof.
  revert tys. induction args as [|a args IH]; intros [|t tys] H;
    try discriminate H; [reflexivity|].
  simpl in H. injection H as Ha Hrest.
  simpl. rewrite Ha. simpl. rewrite (IH _ Hrest). reflexivity.
Qed.

Lemma collect_names_same_types args args' :
  map static_type args' = map static_type args ->
  collect (fun at_ => attr_name (static_type at_)) args'
  = collect (fun at_ => attr_name (static_type at_)) args.
Proof.
  revert args'. induction args as [|a args IH]; intros [|a' args'] H;
    try discriminate H; [reflexivity|].
  simpl in H. injection H as Ha Hrest.
  simpl. rewrite Ha, (IH _ Hrest). reflexivity.
Qed.

(** What [check_types] does once the receiver type and the method are
    known: the arity test, then the loop. *)
Lemma check_method_call_resolved receiver method_name args t method :
  static_type receiver = Some t ->
  method_named t method_name = Some method ->
  check_method_call receiver method_name args
  = if negb (Nat.eqb (length args) (length (parameter_types method))) then
      raise JavaArgumentCountError
        ("Wrong number of arguments for " ++ name t ++ "." ++ method_name
           ++ "(): expected " ++ str (length (parameter_types method))
           ++ ", got " ++ str (length args))
    else
      check_method_args (method_mismatch t method_name method args)
        (combine args (parameter_types method)).
Proof.
  intros Ht Hm. unfold check_method_call. rewrite Ht. simpl. rewrite Hm.
  reflexivity.
Qed.

(** Exceptions of class [JavaTypeError] itself never come out of the
    loop or out of the construction of its message. *)
Lemma collect_names_class args e :
  collect (fun at_ => attr_name (static_type at_)) args = Raise e ->
  cls e = AttributeError.
Proof.
  induction args as [|a args IH]; simpl; [discriminate|].
  destruct (static_type a); simpl.
  - destruct (collect _ args) as [ys|e1]; simpl; [discriminate|].
    intros [= <-]. now apply IH.
  - intros [= <-]. reflexivity.
Qed.

Lemma method_mismatch_class t method_name method args e :
  method_mismatch t method_name method args = Raise e ->
  cls e = AttributeError \/ cls e = JavaTypeMismatchError.
Proof.
  unfold method_mismatch.
  destruct (collect _ args) as [got|e'] eqn:E; simpl.
  - intros [= <-]. now right.
  - intros [= <-]. left. exact (collect_names_class _ _ E).
Qed.

Lemma check_method_args_class on_mismatch pairs e :
  check_method_args on_mismatch pairs = Raise e ->
  cls e = AttributeError \/ on_mismatch = Raise e.
Proof.
  induction pairs as [|[a p] pairs IH]; simpl; [discriminate|].
  destruct (static_type a); simpl.
  - destruct (is_subtype_of _ p); simpl; [exact IH | now right].
  - intros [= <-]. now left.
Qed.

(** *** The constructor-call loop *)

Lemma check_constructor_args_fit t args params :
  signature_matches args params ->
  check_constructor_args t (combine args params) = Return tt.
Proof.
  induction 1 as [|a p args params (ta & Ht & Hsub) _ IH]; simpl.
  - reflexivity.
  - rewrite Ht. simpl. rewrite Hsub. simpl. exact IH.
Qed.

Lemma check_constructor_signature_fit t args :
  is_instantiable t = true ->
  signature_matches args (param_types (constructor t)) ->
  check_constructor_signature t args = Return tt.
Proof.
  intros Hinst Hfit. unfold check_constructor_signature.
  rewrite Hinst, (signature_matches_length _ _ Hfit), Nat.eqb_refl. simpl.
  now apply check_constructor_args_fit.
Qed.

(** *** Method calls *)

(** C1, as amended.  When the receiver has a static type [t] and [t]
    has no method called [method_name], [check_types] raises an
    exception of class [JavaTypeError] itself (the module has no
    subclass for this case) whose text is the name of [t], the words
    [has no method named], and the method name. *)
Theorem method_call_no_such_method receiver method_name args t :
  static_type receiver = Some t ->
  method_named t method_name = None ->
  check_types (JavaMethodCall receiver method_name args)
  = raise JavaTypeError (name t ++ " has no method named " ++ method_name).
Proof.
  intros Ht Hm. simpl. unfold check_method_call.
  rewrite Ht. simpl. rewrite Hm. reflexivity.
Qed.

(** C3.  A method call whose receiver has no static type passes the
    check, whatever the method name and the arguments are. *)
Theorem method_call_undefined_receiver_ok receiver method_name args :
  static_type receiver = None ->
  check_types (JavaMethodCall receiver method_name args) = Return tt.
Proof.
  intros Ht. simpl. unfold check_method_call. rewrite Ht. reflexivity.
Qed.

(** C4.  When the method resolves and the number of arguments differs
    from the number of its parameter types, [check_types] raises a
    [JavaArgumentCountError] that reports both numbers.  No condition is
    put on the arguments: the outcome is the same whether or not their
    types are defined or fit, so the count is tested before any argument
    type is looked at. *)
Theorem method_call_wrong_arity receiver method_name args t method :
  static_type receiver = Some t ->
  method_named t method_name = Some method ->
  length args <> length (parameter_types method) ->
  check_types (JavaMethodCall receiver method_name args)
  = raise JavaArgumentCountError
      ("Wrong number of arguments for " ++ name t ++ "." ++ method_name
         ++ "(): expected " ++ str (length (parameter_types method))
         ++ ", got " ++ str (length args)).
Proof.
  intros Ht Hm Hlen. simpl.
  rewrite (check_method_call_resolved _ _ args _ _ Ht Hm).
  apply Nat.eqb_neq in Hlen. rewrite Hlen. reflexivity.
Qed.

(** Argument mismatch when every argument is typed.  With the method
    resolved, the right number of arguments and every argument having a
    static type, if at some
    position the argument type is not a subtype of the parameter type
    then [check_types] raises a [JavaTypeMismatchError] whose text lists
    all parameter types and all argument types. *)
Theorem method_call_argument_mismatch
    receiver method_name args t method tys i ti pi :
  static_type receiver = Some t ->
  method_named t method_name = Some method ->
  length args = length (parameter_types method) ->
  map static_type args = map Some tys ->
  nth_error tys i = Some ti ->
  nth_error (parameter_types method) i = Some pi ->
  is_subtype_of ti pi = false ->
  check_types (JavaMethodCall receiver method_name args)
  = raise JavaTypeMismatchError
      (name t ++ "." ++ method_name ++ "() expects arguments of type ("
         ++ join ", " (map name (parameter_types method))
         ++ "), but got (" ++ join ", " (map name tys) ++ ")").
Proof.
  intros Ht Hm Hlen Htys Hi Hp Hsub. simpl.
  rewrite (check_method_call_resolved _ _ args _ _ Ht Hm).
  rewrite Hlen, Nat.eqb_refl. simpl.
  rewrite (check_method_args_mismatch _ _ _ Htys _ _ _ _ Hlen Hi Hp Hsub).
  unfold method_mismatch. rewrite (collect_names_defined _ _ Htys).
  reflexivity.
Qed.

(** C6.  The outcome of checking a method call is a function of the
    static types of the receiver and of the arguments alone: replacing
    them by expressions with the same static types changes nothing.
    Hence a call whose method resolves and whose arguments fit the
    parameter types passes, whatever checking the arguments themselves
    would give. *)
Theorem method_call_reads_static_types_only receiver method_name args :
  (forall receiver' args',
      static_type receiver' = static_type receiver ->
      map static_type args' = map static_type args ->
      check_types (JavaMethodCall receiver' method_name args')
      = check_types (JavaMethodCall receiver method_name args))
  /\ (forall t method,
         static_type receiver = Some t ->
         method_named t method_name = Some method ->
         signature_matches args (parameter_types method) ->
         check_types (JavaMethodCall receiver method_name args) = Return tt).
Proof.
  split.
  - intros receiver' args' Hr Ha. simpl. unfold check_method_call.
    rewrite Hr. destruct (static_type receiver) as [t|]; simpl; [|reflexivity].
    destruct (method_named t method_name) as [method|]; [|reflexivity].
    assert (Hlen : length args' = length args).
    { rewrite <- (length_map static_type args'), Ha. apply length_map. }
    rewrite Hlen.
    destruct (negb _); [reflexivity|].
    rewrite (check_method_args_same_types _ _ _ _ Ha).
    unfold method_mismatch. rewrite (collect_names_same_types _ _ Ha).
    reflexivity.
  - intros t method Ht Hm Hfit. simpl.
    rewrite (check_method_call_resolved _ _ args _ _ Ht Hm).
    rewrite (signature_matches_length _ _ Hfit), Nat.eqb_refl. simpl.
    now apply check_method_args_fit.
Qed.

(** C9.  The branch of [JavaMethodCall.check_types] that raises
    "Receiver's type is not defined for method call." is dead code: when
    the value of [static_type()] is false the first test returns, when
    it is true the value is not [None], and no method call produces that
    error. *)
Theorem receiver_undefined_error_unreachable receiver method_name args :
  (if truthy (static_type receiver)
   then static_type receiver <> None
   else check_types (JavaMethodCall receiver method_name args) = Return tt)
  /\ check_types (JavaMethodCall receiver method_name args)
     <> raise JavaTypeError "Receiver's type is not defined for method call.".
Proof.
  split.
  - destruct (static_type receiver) as [t|] eqn:Ht; simpl.
    + discriminate.
    + unfold check_method_call. rewrite Ht. reflexivity.
  - simpl. unfold check_method_call.
    destruct (static_type receiver) as [t|]; simpl; [|discriminate].
    destruct (method_named t method_name) as [method|].
    + destruct (negb _); [discriminate|].
      intros H. destruct (check_method_args_class _ _ _ H) as [Hc|Hm].
      * discriminate Hc.
      * destruct (method_mismatch_class _ _ _ _ _ Hm) as [Hc|Hc];
          discriminate Hc.
    + intros [= H]. exact (no_method_text_differs _ _ H).
Qed.

(** *** Assignments *)

(** X11.  For an assignment whose right-hand side has a static type
    [t], [check_types] returns normally exactly when [t] is
    a subtype of the declared type of the variable, and otherwise raises
    a [JavaTypeMismatchError] naming [t], the variable and its declared
    type. *)
Theorem assignment_defined_rhs lhs rhs t :
  static_type rhs = Some t ->
  (check_types (JavaAssignment lhs rhs) = Return tt
   <-> is_subtype_of t (declared_type lhs) = true)
  /\ (is_subtype_of t (declared_type lhs) = false ->
      check_types (JavaAssignment lhs rhs)
      = raise JavaTypeMismatchError
          ("Cannot assign " ++ name t ++ " to variable " ++ var_name lhs
             ++ " of type " ++ name (declared_type lhs))).
Proof.
  intros Ht. simpl. unfold check_assignment. rewrite Ht. simpl.
  destruct (is_subtype_of t (declared_type lhs)); simpl; split;
    try split; try reflexivity; discriminate.
Qed.

(** C10.  A method call has no static type, and an assignment with a
    method call on the right raises [AttributeError] from the subtype
    test on [None]; that class is not a [JavaTypeError].  In general the
    check of an assignment ends as its contract says (returns, or raises
    a [JavaTypeError]) exactly when the right-hand side has a static
    type. *)
Theorem assignment_of_method_call_attribute_error
    lhs receiver method_name args :
  static_type (JavaMethodCall receiver method_name args) = None
  /\ check_types (JavaAssignment lhs (JavaMethodCall receiver method_name args))
     = raise AttributeError
         "'NoneType' object has no attribute 'is_subtype_of'"
  /\ is_java_type_error AttributeError = false
  /\ (forall rhs,
         honours_contract (check_types (JavaAssignment lhs rhs)) = true
         <-> exists t, static_type rhs = Some t).
Proof.
  repeat split; intros.
  - simpl in *. unfold check_assignment in *.
    destruct (static_type rhs) as [t|]; [now exists t | discriminate].
  - destruct H as [t Ht]. simpl. unfold check_assignment. rewrite Ht. simpl.
    destruct (is_subtype_of t (declared_type lhs)); reflexivity.
Qed.

(** *** Constructor calls *)

(** C7.  Instantiating a type that is not instantiable raises a
    [JavaIllegalInstantiationError] naming the type, whatever the
    arguments are. *)
Theorem constructor_call_not_instantiable t args :
  is_instantiable t = false ->
  check_types (JavaConstructorCall t args)
  = raise JavaIllegalInstantiationError (name t ++ " is not instantiable").
Proof.
  intros H. simpl. unfold check_constructor_signature. rewrite H. reflexivity.
Qed.

(** C8.  When the type is instantiable and the arguments fit the
    parameter types of its constructor, checking the call comes down to
    checking every argument in order: the call passes exactly when all
    arguments pass, and the exception of the first argument that fails
    is the exception of the call. *)
Theorem constructor_call_checks_arguments t args :
  is_instantiable t = true ->
  signature_matches args (param_types (constructor t)) ->
  check_types (JavaConstructorCall t args) = for_each check_types args
  /\ (check_types (JavaConstructorCall t args) = Return tt
      <-> Forall (fun a => check_types a = Return tt) args)
  /\ (forall pre a post e,
         args = (pre ++ a :: post)%list ->
         Forall (fun b => check_types b = Return tt) pre ->
         check_types a = Raise e ->
         check_types (JavaConstructorCall t args) = Raise e)
  /\ (forall a e,
         In a args -> check_types a = Raise e ->
         raises (check_types (JavaConstructorCall t args)) = true).
Proof.
  intros Hinst Hfit.
  assert (E : check_types (JavaConstructorCall t args)
              = for_each check_types args).
  { simpl. now rewrite (check_constructor_signature_fit _ _ Hinst Hfit). }
  rewrite E. repeat split.
  - apply for_each_ok_iff.
  - apply for_each_ok_iff.
  - intros pre a post e -> Hpre Ha. now apply for_each_first_failure.
  - intros a e Hin Ha. exact (for_each_some_failure _ _ _ _ Hin Ha).
Qed.

End Properties.

(** ** The checker on the sample universe *)

Module Scenarios.

Import Sample.

(** [foo.bar()]: [Foo] has no method [bar]. *)
Lemma method_call_no_such_method_witness :
  static_type foo = Some FOO
  /\ @method_named universe FOO "bar" = None
  /\ check_types (JavaMethodCall foo "bar" [])
     = raise JavaTypeError "Foo has no method named bar".
Proof.
  split; [reflexivity | split; [reflexivity |]].
  apply (method_call_no_such_method (U := universe) foo "bar" [] FOO); reflexivity.
Defined.

(** C1 as stated fails: the exception raised for [foo.bar()] is not of
    a proper subclass of [JavaTypeError]. *)
Lemma no_such_method_is_not_a_specialization :
  static_type foo = Some FOO
  /\ @method_named universe FOO "bar" = None
  /\ ~ (exists e,
           check_types (JavaMethodCall foo "bar" []) = Raise e
           /\ is_specialization (cls e) = true).
Proof.
  split; [reflexivity | split; [reflexivity |]].
  intros (e & He & Hs). vm_compute in He. injection He as <-.
  discriminate Hs.
Qed.

(** [int x; x = "hello"] *)
Lemma assignment_defined_rhs_witness :
  static_type hello = Some STRING
  /\ @is_subtype_of universe STRING INT = false
  /\ check_types (JavaAssignment x_int hello)
     = raise JavaTypeMismatchError
         "Cannot assign String to variable x of type int".
Proof.
  split; [reflexivity | split; [reflexivity |]].
  apply (assignment_defined_rhs (U := universe) x_int hello STRING); reflexivity.
Defined.

(** C2.  [o = foo.greet("hello")]: the right-hand side is a method
    call, its static type is [None], and the subtype test of
    [JavaAssignment.check_types] calls [is_subtype_of] on it.  The check
    ends in an [AttributeError]: it does not pass, it does not raise a
    [JavaTypeMismatchError], and it does not keep the contract in the
    docstring of [check_types] (return, or raise a [JavaTypeError]),
    whereas [JavaMethodCall.check_types] tests for a missing static type
    before using it. *)
Lemma assignment_of_untyped_rhs_is_no_mismatch :
  static_type foo_greet = None
  /\ check_types (JavaAssignment o_object foo_greet)
     = raise AttributeError
         "'NoneType' object has no attribute 'is_subtype_of'"
  /\ honours_contract (check_types (JavaAssignment o_object foo_greet))
     = false
  /\ check_types (JavaAssignment o_object foo_greet) <> Return tt
  /\ ~ (exists msg,
           check_types (JavaAssignment o_object foo_greet)
           = raise JavaTypeMismatchError msg).
Proof.
  repeat (split; [reflexivity |]). split.
  - discriminate.
  - intros (msg & H). discriminate H.
Qed.

(** [foo.greet("hello").length()]: the receiver is a method call. *)
Lemma method_call_undefined_receiver_ok_witness :
  static_type foo_greet = None
  /\ check_types (JavaMethodCall foo_greet "length" [one; two]) = Return tt.
Proof.
  split; [reflexivity |].
  apply (method_call_undefined_receiver_ok (U := universe)); reflexivity.
Defined.

(** [foo.combine(foo.greet("hello"))]: one argument for two
    parameters, and the argument has no static type. *)
Lemma method_call_wrong_arity_witness :
  static_type foo = Some FOO
  /\ @method_named universe FOO "combine"
     = Some {| parameter_types := [STRING; STRING] |}
  /\ static_type foo_greet = None
  /\ check_types (JavaMethodCall foo "combine" [foo_greet])
     = raise JavaArgumentCountError
         "Wrong number of arguments for Foo.combine(): expected 2, got 1".
Proof.
  repeat (split; [reflexivity |]).
  apply (method_call_wrong_arity (U := universe) foo "combine" [foo_greet] FOO
           {| parameter_types := [STRING; STRING] |});
    [reflexivity | reflexivity | simpl; lia].
Defined.

(** [foo.combine("hello", 1)]: the second argument does not fit, and
    the text lists both parameter types and both argument types. *)
Lemma method_call_argument_mismatch_witness :
  static_type foo = Some FOO
  /\ @method_named universe FOO "combine"
     = Some {| parameter_types := [STRING; STRING] |}
  /\ map static_type [hello; one] = map Some [STRING; INT]
  /\ @is_subtype_of universe INT STRING = false
  /\ check_types (JavaMethodCall foo "combine" [hello; one])
     = raise JavaTypeMismatchError
         "Foo.combine() expects arguments of type (String, String), but got (String, int)".
Proof.
  repeat (split; [reflexivity |]).
  apply (method_call_argument_mismatch (U := universe) foo "combine" [hello; one]
           FOO {| parameter_types := [STRING; STRING] |} [STRING; INT]
           1 INT STRING); reflexivity.
Defined.

(** C5.  In [foo.combine(1, foo.greet("hello"))] the method resolves,
    the count is right and the first argument does not fit, so the loop
    of [JavaMethodCall.check_types] reaches its
    [raise JavaTypeMismatchError]; but building the text of that error
    reads the name of the type of every argument, and the type of the
    second one is [None].  The check ends in an [AttributeError], not in
    a [JavaTypeMismatchError], and does not keep the contract in the
    docstring of [check_types]. *)
Lemma method_call_mismatch_with_untyped_argument :
  static_type foo = Some FOO
  /\ @method_named universe FOO "combine"
     = Some {| parameter_types := [STRING; STRING] |}
  /\ length [one; foo_greet] = 2
  /\ static_type one = Some INT
  /\ @is_subtype_of universe INT STRING = false
  /\ check_types (JavaMethodCall foo "combine" [one; foo_greet])
     = raise AttributeError "'NoneType' object has no attribute 'name'"
  /\ honours_contract
       (check_types (JavaMethodCall foo "combine" [one; foo_greet]))
     = false
  /\ ~ (exists msg,
           check_types (JavaMethodCall foo "combine" [one; foo_greet])
           = raise JavaTypeMismatchError msg).
Proof.
  repeat (split; [reflexivity |]).
  intros (msg & H). discriminate H.
Qed.

(** [new Foo(1, 2).greet(s = 1)]: the receiver and the argument are
    both ill-typed, their static types fit, and the call passes. *)
Lemma method_call_reads_static_types_only_witness :
  raises (check_types new_foo_1_2) = true
  /\ raises (check_types (JavaAssignment s_string one)) = true
  /\ check_types
       (JavaMethodCall new_foo_1_2 "greet" [JavaAssignment s_string one])
     = Return tt.
Proof.
  split; [reflexivity | split; [reflexivity |]].
  apply (proj2 (method_call_reads_static_types_only (U := universe)
                  new_foo_1_2 "greet" [JavaAssignment s_string one])
           FOO {| parameter_types := [STRING] |});
    [reflexivity | reflexivity |].
  apply Forall2_cons; [| apply Forall2_nil].
  exists STRING. split; reflexivity.
Defined.

(** [new AbstractThing(1, 2)] *)
Lemma constructor_call_not_instantiable_witness :
  @is_instantiable universe ABSTRACT_THING = false
  /\ check_types (JavaConstructorCall ABSTRACT_THING [one; two])
     = raise JavaIllegalInstantiationError "AbstractThing is not instantiable".
Proof.
  split; [reflexivity |].
  apply (constructor_call_not_instantiable (U := universe)); reflexivity.
Defined.

(** [new Foo(x = "hello")]: the argument has type [int], as the
    constructor wants, and is itself ill-typed. *)
Lemma constructor_call_checks_arguments_witness :
  @is_instantiable universe FOO = true
  /\ static_type (JavaAssignment x_int hello) = Some INT
  /\ check_types (JavaConstructorCall FOO [JavaAssignment x_int hello])
     = raise JavaTypeMismatchError
         "Cannot assign String to variable x of type int".
Proof.
  split; [reflexivity | split; [reflexivity |]].
  assert (Hfit : signature_matches [JavaAssignment x_int hello]
                   (param_types (@constructor universe FOO))).
  { apply Forall2_cons; [| apply Forall2_nil].
    exists INT. split; reflexivity. }
  destruct (constructor_call_checks_arguments (U := universe) FOO
              [JavaAssignment x_int hello] eq_refl Hfit)
    as (_ & _ & Hfirst & _).
  apply (Hfirst [] (JavaAssignment x_int hello) []);
    [reflexivity | apply Forall_nil | reflexivity].
Defined.

(** [Object o = null] passes, and [o = foo.greet("hello")] ends in an
    [AttributeError]. *)
Example assign_null_to_object :
  check_types (JavaAssignment o_object JavaNullLiteral) = Return tt.
Proof. reflexivity. Qed.

Example assign_method_call_to_object :
  check_types (JavaAssignment o_object foo_greet)
  = raise AttributeError "'NoneType' object has no attribute 'is_subtype_of'".
Proof. reflexivity. Qed.

End Scenarios.

(** ** A second universe, with constructors of several parameters

    Modelled from the spec: a few geometric types in the style of the
    scenarios, since [types.py] and its fixtures are not part of the
    sources at hand.  [Point] and [Size] are built from two [double]s,
    [Rectangle] from a [Point] and a [Size]; [Shape] is abstract. *)

Module Geometry.

Inductive ty : Type := DOUBLE | POINT | SIZE | RECTANGLE | SHAPE | NULL_TYPE.

Definition ty_eqb (a b : ty) : bool :=
  match a, b with
  | DOUBLE, DOUBLE | POINT, POINT | SIZE, SIZE | RECTANGLE, RECTANGLE
  | SHAPE, SHAPE | NULL_TYPE, NULL_TYPE => true
  | _, _ => false
  end.

Definition ty_name (a : ty) : string :=
  match a with
  | DOUBLE => "double"
  | POINT => "Point"
  | SIZE => "Size"
  | RECTANGLE => "Rectangle"
  | SHAPE => "Shape"
  | NULL_TYPE => "null"
  end.

(** Reflexive; the null type below every type but [double];
    [Rectangle] below [Shape]. *)
Definition ty_is_subtype_of (a b : ty) : bool :=
  ty_eqb a b
  || match a, b with
     | NULL_TYPE, DOUBLE => false
     | NULL_TYPE, _ => true
     | RECTANGLE, SHAPE => true
     | _, _ => false
     end.

Definition ty_method_named (a : ty) (m : string) : option (JavaMethod ty) :=
  match a with
  | RECTANGLE =>
      if String.eqb m "moveTo" then Some {| parameter_types := [POINT] |}
      else if String.eqb m "resize" then
        Some {| parameter_types := [DOUBLE; DOUBLE] |}
      else None
  | _ => None
  end.

Definition ty_constructor (a : ty) : JavaConstructor ty :=
  match a with
  | POINT | SIZE => {| param_types := [DOUBLE; DOUBLE] |}
  | RECTANGLE => {| param_types := [POINT; SIZE] |}
  | _ => {| param_types := [] |}
  end.

Definition ty_is_instantiable (a : ty) : bool :=
  match a with
  | POINT | SIZE | RECTANGLE => true
  | DOUBLE | SHAPE | NULL_TYPE => false
  end.

#[export] Instance universe : TypeUniverse :=
  {| JavaType := ty;
     name := ty_name;
     is_subtype_of := ty_is_subtype_of;
     method_named := ty_method_named;
     constructor := ty_constructor;
     is_instantiable := ty_is_instantiable;
     NULL := NULL_TYPE |}.

Definition num (digits : string) : JavaExpression := JavaLiteral digits DOUBLE.

Definition rect : JavaExpression :=
  JavaVariableExpr {| var_name := "rect"; declared_type := RECTANGLE |}.
Definition shape_var : JavaVariable :=
  {| var_name := "shape"; declared_type := SHAPE |}.

(** [new Point(1.0, 2.0)], [new Size(3.0, 4.0)] and the ill-typed
    [new Size(3.0)], [new Shape()]. *)
Definition new_point : JavaExpression :=
  JavaConstructorCall POINT [num "1.0"; num "2.0"].
Definition new_size : JavaExpression :=
  JavaConstructorCall SIZE [num "3.0"; num "4.0"].
Definition new_size_short : JavaExpression :=
  JavaConstructorCall SIZE [num "3.0"].
Definition new_shape : JavaExpression := JavaConstructorCall SHAPE [].

(** [rect.moveTo(new Point(1.0, 2.0))], an expression without a static
    type. *)
Definition rect_move : JavaExpression := JavaMethodCall rect "moveTo" [new_point].

End Geometry.

(** ** Induction on expressions, through the argument lists *)

Section ExpressionInduction.

Context {U : TypeUniverse} (P : JavaExpression -> Prop).
Context (Hvar : forall v, P (JavaVariableExpr v))
        (Hlit : forall value type, P (JavaLiteral value type))
        (Hnull : P JavaNullLiteral)
        (Hassign : forall lhs rhs, P rhs -> P (JavaAssignment lhs rhs))
        (Hcall : forall receiver method_name args,
            P receiver -> Forall P args ->
            P (JavaMethodCall receiver method_name args))
        (Hnew : forall t args,
            Forall P args -> P (JavaConstructorCall t args)).

Fixpoint JavaExpression_nested_ind (e : JavaExpression) : P e :=
  let all :=
    fix all (l : list JavaExpression) : Forall P l :=
      match l with
      | [] => Forall_nil P
      | a :: l' => Forall_cons a (JavaExpression_nested_ind a) (all l')
      end in
  match e with
  | JavaVariableExpr v => Hvar v
  | JavaLiteral value type => Hlit value type
  | JavaNullLiteral => Hnull
  | JavaAssignment lhs rhs => Hassign lhs rhs (JavaExpression_nested_ind rhs)
  | JavaMethodCall receiver method_name args =>
      Hcall receiver method_name args
        (JavaExpression_nested_ind receiver) (all args)
  | JavaConstructorCall t args => Hnew t args (all args)
  end.

End ExpressionInduction.

(** ** More auxiliary facts *)

Lemma string_append_assoc (a b c : string) : (a ++ b) ++ c = a ++ (b ++ c).
Proof. induction a as [|x a IH]; simpl; [reflexivity | now rewrite IH]. Qed.

Lemma tuples_in_text (a b : string) :
  "(" ++ a ++ "), but got (" ++ b ++ ")"
  = ("(" ++ a ++ ")") ++ ", but got " ++ ("(" ++ b ++ ")").
Proof. simpl. f_equal. now rewrite string_append_assoc. Qed.

Lemma for_each_honours {A : Type} (f : A -> result unit) (xs : list A) :
  Forall (fun x => honours_contract (f x) = true) xs ->
  honours_contract (for_each f xs) = true.
Proof.
  induction 1 as [|x xs Hx _ IH]; simpl; [reflexivity|].
  destruct (f x) as [[]|e]; simpl in *; assumption.
Qed.

Lemma raised_with_class {A : Type} (m : result A) (c : exn_class) :
  (exists e, m = Raise e /\ cls e = c) -> exists msg, m = raise c msg.
Proof.
  intros ([c' msg] & -> & Hc). simpl in Hc. subst c'. now exists msg.
Qed.

(** ** Further properties of the checker *)

Section MoreProperties.

Context {U : TypeUniverse}.

Lemma all_typed_map args :
  forallb (fun a => truthy (static_type a)) args = true ->
  exists tys, map static_type args = map Some tys.
Proof.
  induction args as [|a args IH]; simpl; intros H.
  - now exists [].
  - apply andb_prop in H as [Ha Hrest].
    destruct (IH Hrest) as [tys Htys].
    destruct (static_type a) as [t|]; [|discriminate Ha].
    exists (t :: tys). simpl. now rewrite Htys.
Qed.

Lemma collect_names_untyped args a :
  In a args -> static_type a = None ->
  exists e,
    collect (fun at_ => attr_name (static_type at_)) args = Raise e
    /\ cls e = AttributeError.
Proof.
  intros Hin Ha. induction args as [|a0 args IH]; simpl in *; [contradiction|].
  destruct (static_type a0) as [t0|] eqn:E0; simpl.
  - destruct Hin as [->|Hin]; [congruence|].
    destruct (IH Hin) as (e & He & Hc). rewrite He. simpl. now exists e.
  - eexists. split; reflexivity.
Qed.

Lemma method_mismatch_raises t method_name method args :
  raises (method_mismatch t method_name method args) = true.
Proof.
  unfold method_mismatch. now destruct (collect _ args).
Qed.

Lemma method_mismatch_untyped t method_name method args a :
  In a args -> static_type a = None ->
  exists e,
    method_mismatch t method_name method args = Raise e
    /\ cls e = AttributeError.
Proof.
  intros Hin Ha. unfold method_mismatch.
  destruct (collect_names_untyped _ _ Hin Ha) as (e & He & Hc).
  rewrite He. simpl. now exists e.
Qed.

Lemma check_method_args_untyped on_mismatch args a :
  (exists e, on_mismatch = Raise e /\ cls e = AttributeError) ->
  In a args -> static_type a = None ->
  forall params,
    length args = length params ->
    exists e,
      check_method_args on_mismatch (combine args params) = Raise e
      /\ cls e = AttributeError.
Proof.
  intros Hom Hin Ha. induction args as [|a0 args IH]; [contradiction|].
  intros [|p params] Hlen; [discriminate Hlen|].
  simpl. destruct (static_type a0) as [t0|] eqn:E0; simpl.
  - destruct (is_subtype_of t0 p); simpl; [|exact Hom].
    destruct Hin as [->|Hin]; [congruence|].
    apply (IH Hin). simpl in Hlen. now injection Hlen.
  - eexists. split; reflexivity.
Qed.

Lemma check_method_args_ok_inv on_mismatch args :
  raises on_mismatch = true ->
  forall params,
    length args = length params ->
    check_method_args on_mismatch (combine args params) = Return tt ->
    signature_matches args params.
Proof.
  intros Hom. induction args as [|a args IH]; intros [|p params] Hlen;
    try discriminate Hlen.
  - intros _. constructor.
  - simpl. destruct (static_type a) as [t|] eqn:Ea; simpl; [|discriminate].
    destruct (is_subtype_of t p) eqn:Esub; simpl.
    + intros H. constructor.
      * exists t. now split.
      * apply IH; [now injection Hlen | exact H].
    + intros H. rewrite H in Hom. discriminate Hom.
Qed.

Lemma check_method_args_honours on_mismatch pairs :
  honours_contract on_mismatch = true ->
  forallb (fun a => truthy (static_type a)) (map fst pairs) = true ->
  honours_contract (check_method_args on_mismatch pairs) = true.
Proof.
  intros Hom. induction pairs as [|[a p] pairs IH]; simpl; [reflexivity|].
  intros H. apply andb_prop in H as [Ha Hrest].
  destruct (static_type a) as [t|]; [|discriminate Ha]. simpl.
  destruct (is_subtype_of t p); simpl; [now apply IH | exact Hom].
Qed.

Lemma check_constructor_args_ok_inv t args :
  forall params,
    length args = length params ->
    check_constructor_args t (combine args params) = Return tt ->
    signature_matches args params.
Proof.
  induction args as [|a args IH]; intros [|p params] Hlen;
    try discriminate Hlen.
  - intros _. constructor.
  - simpl. destruct (static_type a) as [ta|] eqn:Ea; simpl; [|discriminate].
    destruct (is_subtype_of ta p) eqn:Esub; simpl; [|discriminate].
    intros H. constructor.
    + exists ta. now split.
    + apply IH; [now injection Hlen | exact H].
Qed.

Lemma check_constructor_args_first_mismatch t pre ppre a p post ppost ta :
  signature_matches pre ppre ->
  static_type a = Some ta ->
  is_subtype_of ta p = false ->
  check_constructor_args t
    (combine (pre ++ a :: post)%list (ppre ++ p :: ppost)%list)
  = raise JavaTypeMismatchError
      (name t ++ " constructor expects arguments of type " ++ name p
         ++ ", but got " ++ name ta).
Proof.
  intros Hpre Ha Hsub.
  induction Hpre as [|b q pre ppre (tb & Hb & Hbq) _ IH]; simpl.
  - rewrite Ha. simpl. rewrite Hsub. reflexivity.
  - rewrite Hb. simpl. rewrite Hbq. simpl. exact IH.
Qed.

Lemma check_constructor_args_first_misfit t args a :
  In a args -> static_type a = None ->
  forall params,
    length args = length params ->
    exists pre b post ppre p ppost,
      args = (pre ++ b :: post)%list
      /\ params = (ppre ++ p :: ppost)%list
      /\ signature_matches pre ppre
      /\ (b = a \/ In a post)
      /\ ((static_type b = None
           /\ check_constructor_args t (combine args params)
              = raise AttributeError
                  "'NoneType' object has no attribute 'is_subtype_of'")
          \/ (exists tb,
                 static_type b = Some tb
                 /\ is_subtype_of tb p = false
                 /\ In a post
                 /\ check_constructor_args t (combine args params)
                    = raise JavaTypeMismatchError
                        (name t ++ " constructor expects arguments of type "
                           ++ name p ++ ", but got " ++ name tb))).
Proof.
  intros Hin Ha. induction args as [|a0 args IH]; [contradiction|].
  intros [|p0 params] Hlen; [discriminate Hlen|].
  destruct (static_type a0) as [t0|] eqn:E0.
  - assert (Hin' : In a args).
    { destruct Hin as [->|Hin]; [congruence | exact Hin]. }
    destruct (is_subtype_of t0 p0) eqn:Esub.
    + simpl in Hlen. injection Hlen as Hlen.
      destruct (IH Hin' params Hlen)
        as (pre & b & post & ppre & p & ppost & -> & -> & Hpre & Hpos & Hb).
      exists (a0 :: pre), b, post, (p0 :: ppre), p, ppost.
      split; [reflexivity | split; [reflexivity | split; [| split]]].
      * constructor; [exists t0; now split | exact Hpre].
      * exact Hpos.
      * simpl. rewrite E0. simpl. rewrite Esub. simpl. exact Hb.
    + exists [], a0, args, [], p0, params.
      split; [reflexivity | split; [reflexivity | split; [| split]]].
      * constructor.
      * now right.
      * right. exists t0. simpl. rewrite E0. simpl. rewrite Esub.
        now repeat split.
  - exists [], a0, args, [], p0, params.
    split; [reflexivity | split; [reflexivity | split; [| split]]].
    + constructor.
    + destruct Hin as [->|Hin]; [now left | now right].
    + left. simpl. rewrite E0. now split.
Qed.

Lemma check_constructor_args_honours t pairs :
  forallb (fun a => truthy (static_type a)) (map fst pairs) = true ->
  honours_contract (check_constructor_args t pairs) = true.
Proof.
  induction pairs as [|[a p] pairs IH]; simpl; [reflexivity|].
  intros H. apply andb_prop in H as [Ha Hrest].
  destruct (static_type a) as [ta|]; [|discriminate Ha]. simpl.
  destruct (is_subtype_of ta p); simpl; [now apply IH | reflexivity].
Qed.

Lemma all_typed_combine (args : list JavaExpression) (params : list JavaType) :
  forallb (fun a => truthy (static_type a)) args = true ->
  forallb (fun a => truthy (static_type a)) (map fst (combine args params))
  = true.
Proof.
  revert params. induction args as [|a args IH]; intros [|p params] H;
    try reflexivity.
  simpl in *. apply andb_prop in H as [Ha Hrest].
  rewrite Ha. simpl. now apply IH.
Qed.

Lemma check_constructor_signature_instantiable t args :
  is_instantiable t = true ->
  length args = length (param_types (constructor t)) ->
  check_constructor_signature t args
  = check_constructor_args t (combine args (param_types (constructor t))).
Proof.
  intros Hinst Hlen. unfold check_constructor_signature.
  now rewrite Hinst, Hlen, Nat.eqb_refl.
Qed.

(** *** Constructor calls: the signature *)

(** X1.  Instantiating an instantiable type with a number of arguments
    other than the number of parameters of its constructor raises a
    [JavaArgumentCountError] that gives the type, the expected and the
    actual number, whatever the arguments are. *)
Theorem constructor_call_wrong_arity t args :
  is_instantiable t = true ->
  length args <> length (param_types (constructor t)) ->
  check_types (JavaConstructorCall t args)
  = raise JavaArgumentCountError
      ("Wrong number of arguments for " ++ name t
         ++ " constructor: expected "
         ++ str (length (param_types (constructor t)))
         ++ ", got " ++ str (length args)).
Proof.
  intros Hinst Hlen. simpl. unfold check_constructor_signature.
  rewrite Hinst. apply Nat.eqb_neq in Hlen. rewrite Hlen. reflexivity.
Qed.

(** X2.  When the type is instantiable and the number of arguments is
    right, if the arguments before some position fit their parameters and the argument at that position
    has a type that is not a subtype of its parameter type, the call
    raises a [JavaTypeMismatchError] naming the instantiated type and
    that one pair of types.  The arguments after the position, and what
    checking any argument would give, do not matter. *)
Theorem constructor_call_first_mismatch t pre a post ppre p ppost ta :
  is_instantiable t = true ->
  param_types (constructor t) = (ppre ++ p :: ppost)%list ->
  signature_matches pre ppre ->
  length post = length ppost ->
  static_type a = Some ta ->
  is_subtype_of ta p = false ->
  check_types (JavaConstructorCall t (pre ++ a :: post)%list)
  = raise JavaTypeMismatchError
      (name t ++ " constructor expects arguments of type " ++ name p
         ++ ", but got " ++ name ta).
Proof.
  intros Hinst Hparams Hpre Hpost Ha Hsub. simpl.
  rewrite check_constructor_signature_instantiable; [|exact Hinst|].
  - rewrite Hparams.
    now rewrite (check_constructor_args_first_mismatch t _ _ _ _ post ppost _
                   Hpre Ha Hsub).
  - rewrite Hparams, !length_app. simpl.
    now rewrite (signature_matches_length _ _ Hpre), Hpost.
Qed.

(** X3.  A constructor call on an instantiable type with the right
    number of arguments, one of which has no static type, never passes.
    The first argument that does not fit decides: it is the untyped
    argument or stands before it, the arguments before it fit, and the
    call raises the [AttributeError] of calling [is_subtype_of] on
    [None] if that argument is untyped, and otherwise the
    [JavaTypeMismatchError] naming its type and its parameter type. *)
Theorem constructor_call_untyped_argument t args a :
  is_instantiable t = true ->
  length args = length (param_types (constructor t)) ->
  In a args ->
  static_type a = None ->
  exists pre b post ppre p ppost,
    args = (pre ++ b :: post)%list
    /\ param_types (constructor t) = (ppre ++ p :: ppost)%list
    /\ signature_matches pre ppre
    /\ (b = a \/ In a post)
    /\ ((static_type b = None
         /\ check_types (JavaConstructorCall t args)
            = raise AttributeError
                "'NoneType' object has no attribute 'is_subtype_of'")
        \/ (exists tb,
               static_type b = Some tb
               /\ is_subtype_of tb p = false
               /\ In a post
               /\ check_types (JavaConstructorCall t args)
                  = raise JavaTypeMismatchError
                      (name t ++ " constructor expects arguments of type "
                         ++ name p ++ ", but got " ++ name tb))).
Proof.
  intros Hinst Hlen Hin Ha.
  destruct (check_constructor_args_first_misfit t _ _ Hin Ha _ Hlen)
    as (pre & b & post & ppre & p & ppost & Hargs & Hparams & Hpre & Hpos
        & Hb).
  exists pre, b, post, ppre, p, ppost.
  split; [exact Hargs | split; [exact Hparams | split; [exact Hpre |]]].
  split; [exact Hpos |].
  simpl. rewrite (check_constructor_signature_instantiable _ _ Hinst Hlen).
  destruct Hb as [(Hnone & He) | (tb & Htb & Hsub & Hpost & He)].
  - left. rewrite He. now split.
  - right. exists tb. rewrite He. now repeat split.
Qed.

(** X4.  A constructor call passes the check exactly when the type is
    instantiable, the arguments fit the parameter types of its
    constructor, and every argument passes the check itself. *)
Theorem constructor_call_passes_iff t args :
  check_types (JavaConstructorCall t args) = Return tt
  <-> is_instantiable t = true
      /\ signature_matches args (param_types (constructor t))
      /\ Forall (fun a => check_types a = Return tt) args.
Proof.
  split.
  - simpl. unfold check_constructor_signature.
    destruct (is_instantiable t); simpl; [|discriminate].
    destruct (Nat.eqb_spec (length args)
                (length (param_types (constructor t)))) as [Hlen|Hlen];
      simpl; [|discriminate].
    destruct (check_constructor_args t _) as [[]|e] eqn:E; simpl;
      [|discriminate].
    intros H. split; [reflexivity | split].
    + exact (check_constructor_args_ok_inv _ _ _ Hlen E).
    + now apply for_each_ok_iff.
  - intros (Hinst & Hfit & Hargs). simpl.
    rewrite (check_constructor_signature_fit _ _ Hinst Hfit). simpl.
    now apply for_each_ok_iff.
Qed.

(** *** Method calls *)

(** X5.  A method call passes the check exactly when its receiver has no
    static type, or the receiver's type has a method of that name whose
    parameter types the arguments fit. *)
Theorem method_call_passes_iff receiver method_name args :
  check_types (JavaMethodCall receiver method_name args) = Return tt
  <-> static_type receiver = None
      \/ (exists t method,
             static_type receiver = Some t
             /\ method_named t method_name = Some method
             /\ signature_matches args (parameter_types method)).
Proof.
  split.
  - simpl. unfold check_method_call.
    destruct (static_type receiver) as [t|]; simpl; [|now left].
    destruct (method_named t method_name) as [method|] eqn:Hm;
      [|discriminate].
    destruct (Nat.eqb_spec (length args) (length (parameter_types method)))
      as [Hlen|Hlen]; simpl; [|discriminate].
    intros H. right. exists t, method.
    split; [reflexivity | split; [exact Hm |]].
    exact (check_method_args_ok_inv _ _
             (method_mismatch_raises t method_name method args) _ Hlen H).
  - intros [Hnone | (t & method & Ht & Hm & Hfit)]; simpl.
    + unfold check_method_call. now rewrite Hnone.
    + rewrite (check_method_call_resolved _ _ args _ _ Ht Hm).
      rewrite (signature_matches_length _ _ Hfit), Nat.eqb_refl. simpl.
      now apply check_method_args_fit.
Qed.

(** X6.  When the method resolves and the number of arguments is right,
    an argument without a static type makes the check end in an
    [AttributeError], wherever that argument stands and whether or not
    the other arguments fit. *)
Theorem method_call_untyped_argument receiver method_name args t method a :
  static_type receiver = Some t ->
  method_named t method_name = Some method ->
  length args = length (parameter_types method) ->
  In a args ->
  static_type a = None ->
  exists msg,
    check_types (JavaMethodCall receiver method_name args)
    = raise AttributeError msg.
Proof.
  intros Ht Hm Hlen Hin Ha. apply raised_with_class. simpl.
  rewrite (check_method_call_resolved _ _ args _ _ Ht Hm).
  rewrite Hlen, Nat.eqb_refl. simpl.
  apply (check_method_args_untyped _ _ a); try assumption.
  now apply method_mismatch_untyped with a.
Qed.

(** X9.  The two tuples in the text of the method-call mismatch error
    are what the helper [_names] renders for the parameter types and for
    the argument types. *)
Theorem method_call_mismatch_text_names
    receiver method_name args t method tys i ti pi :
  static_type receiver = Some t ->
  method_named t method_name = Some method ->
  length args = length (parameter_types method) ->
  map static_type args = map Some tys ->
  nth_error tys i = Some ti ->
  nth_error (parameter_types method) i = Some pi ->
  is_subtype_of ti pi = false ->
  check_types (JavaMethodCall receiver method_name args)
  = raise JavaTypeMismatchError
      (name t ++ "." ++ method_name ++ "() expects arguments of type "
         ++ _names (parameter_types method) ++ ", but got " ++ _names tys).
Proof.
  intros Ht Hm Hlen Htys Hi Hp Hsub.
  unfold _names. rewrite <- tuples_in_text. simpl.
  rewrite (check_method_call_resolved _ _ args _ _ Ht Hm).
  rewrite Hlen, Nat.eqb_refl. simpl.
  rewrite (check_method_args_mismatch _ _ _ Htys _ _ _ _ Hlen Hi Hp Hsub).
  unfold method_mismatch. rewrite (collect_names_defined _ _ Htys).
  reflexivity.
Qed.

(** *** Assignments *)

(** X7.  The check of an assignment reads the static type of the
    right-hand side and nothing else of it: two right-hand sides of the
    same static type give the same outcome, so an assignment passes as
    soon as that type is a subtype of the variable's type, whatever
    checking the right-hand side itself would give. *)
Theorem assignment_reads_static_type_only lhs rhs :
  (forall rhs',
      static_type rhs' = static_type rhs ->
      check_types (JavaAssignment lhs rhs')
      = check_types (JavaAssignment lhs rhs))
  /\ (forall t,
         static_type rhs = Some t ->
         is_subtype_of t (declared_type lhs) = true ->
         check_types (JavaAssignment lhs rhs) = Return tt).
Proof.
  split.
  - intros rhs' H. simpl. unfold check_assignment. now rewrite H.
  - intros t Ht Hsub. simpl. unfold check_assignment.
    rewrite Ht. simpl. now rewrite Hsub.
Qed.

(** *** The contract of [check_types] *)

(** X8.  When every expression whose static type the check reads has
    one, the check does what the docstring of [check_types] says: it
    returns, or it raises a [JavaTypeError]. *)
Theorem typed_operands_honour_contract e :
  operands_typed e = true ->
  honours_contract (check_types e) = true.
Proof.
  induction e as [v | value type | | lhs rhs _ | receiver method_name args _ _
                  | t args IH] using JavaExpression_nested_ind;
    try reflexivity.
  - simpl. unfold check_assignment.
    destruct (static_type rhs) as [tr|]; simpl; [|discriminate].
    intros _. now destruct (is_subtype_of tr (declared_type lhs)).
  - simpl. intros Hargs. unfold check_method_call.
    destruct (static_type receiver) as [t|]; simpl; [|reflexivity].
    destruct (method_named t method_name) as [method|]; [|reflexivity].
    destruct (negb _); [reflexivity|].
    apply check_method_args_honours; [|now apply all_typed_combine].
    unfold method_mismatch.
    destruct (all_typed_map _ Hargs) as [tys Htys].
    now rewrite (collect_names_defined _ _ Htys).
  - simpl. intros Hargs.
    assert (Htyped : forallb (fun a => truthy (static_type a)) args = true).
    { apply forallb_forall. intros a Hin.
      rewrite forallb_forall in Hargs.
      now destruct (andb_prop _ _ (Hargs a Hin)). }
    assert (Hsig : honours_contract (check_constructor_signature t args)
                   = true).
    { unfold check_constructor_signature.
      destruct (negb (is_instantiable t)); [reflexivity|].
      destruct (negb _); [reflexivity|].
      apply check_constructor_args_honours. now apply all_typed_combine. }
    destruct (check_constructor_signature t args) as [[]|e]; simpl;
      [|exact Hsig].
    apply for_each_honours.
    rewrite Forall_forall in IH |- *. intros a Hin. apply (IH a Hin).
    rewrite forallb_forall in Hargs.
    now destruct (andb_prop _ _ (Hargs a Hin)).
Qed.

(** *** The exceptions of [check_types] *)

Lemma for_each_raise_inv {A : Type} (f : A -> result unit) xs e :
  for_each f xs = Raise e -> exists x, In x xs /\ f x = Raise e.
Proof.
  induction xs as [|x xs IH]; simpl; [discriminate|].
  destruct (f x) as [[]|e'] eqn:E; simpl.
  - intros H. destruct (IH H) as (y & Hy & Hf). exists y. now split; [right|].
  - intros [= <-]. exists x. now split; [left|].
Qed.

Lemma collect_names_raise_inv args e :
  collect (fun at_ => attr_name (static_type at_)) args = Raise e ->
  none_attribute_error e.
Proof.
  induction args as [|a args IH]; simpl; [discriminate|].
  destruct (static_type a); simpl.
  - destruct (collect _ args) as [ys|e1]; simpl; [discriminate|].
    intros [= <-]. now apply IH.
  - intros [= <-]. now left.
Qed.

Lemma check_method_args_raise_inv on_mismatch pairs e :
  check_method_args on_mismatch pairs = Raise e ->
  none_attribute_error e \/ on_mismatch = Raise e.
Proof.
  induction pairs as [|[a p] pairs IH]; simpl; [discriminate|].
  destruct (static_type a); simpl.
  - destruct (is_subtype_of _ p); simpl; [exact IH | now right].
  - intros [= <-]. left. now right.
Qed.

Lemma check_constructor_args_raise_inv t pairs e :
  check_constructor_args t pairs = Raise e ->
  none_attribute_error e \/ cls e = JavaTypeMismatchError.
Proof.
  induction pairs as [|[a p] pairs IH]; simpl; [discriminate|].
  destruct (static_type a); simpl.
  - destruct (is_subtype_of _ p); simpl; [exact IH |].
    intros [= <-]. now right.
  - intros [= <-]. left. now right.
Qed.

(** X10.  Whatever the expression, an exception that comes out of
    [check_types] is a [JavaTypeError] (of the class or of a subclass)
    or the [AttributeError] of reading [name] or calling
    [is_subtype_of] on [None]. *)
Theorem check_types_exceptions e ex :
  check_types e = Raise ex ->
  is_java_type_error (cls ex) = true \/ none_attribute_error ex.
Proof.
  revert ex.
  induction e as [v | value type | | lhs rhs _ | receiver method_name args _ _
                  | t args IH] using JavaExpression_nested_ind;
    intros ex; try discriminate.
  - simpl. unfold check_assignment.
    destruct (static_type rhs) as [tr|]; simpl.
    + destruct (is_subtype_of tr (declared_type lhs)); simpl; [discriminate|].
      intros [= <-]. now left.
    + intros [= <-]. right. now right.
  - simpl. unfold check_method_call.
    destruct (static_type receiver) as [t|]; simpl; [|discriminate].
    destruct (method_named t method_name) as [method|].
    + destruct (negb _); [intros [= <-]; now left|].
      intros H. destruct (check_method_args_raise_inv _ _ _ H) as [Hn|Hm];
        [now right|].
      unfold method_mismatch in Hm.
      destruct (collect _ args) as [got|e'] eqn:E; simpl in Hm.
      * injection Hm as <-. now left.
      * injection Hm as <-. right. exact (collect_names_raise_inv _ _ E).
    + intros [= <-]. now left.
  - simpl.
    destruct (check_constructor_signature t args) as [[]|e'] eqn:E; simpl.
    + intros H. destruct (for_each_raise_inv _ _ _ H) as (a & Hin & Ha).
      rewrite Forall_forall in IH. exact (IH a Hin ex Ha).
    + intros [= <-]. unfold check_constructor_signature in E.
      destruct (negb (is_instantiable t)); [injection E as <-; now left|].
      destruct (negb _); [injection E as <-; now left|].
      destruct (check_constructor_args_raise_inv _ _ _ E) as [Hn|Hc];
        [now right | left; now rewrite Hc].
Qed.

End MoreProperties.

(** ** The checker on the geometric universe *)

Module GeometryScenarios.

Import Geometry.

(** [new Point(1.0)], ill-typed but of static type [Point]. *)
Definition new_point_short : JavaExpression :=
  JavaConstructorCall POINT [num "1.0"].

(** [new Rectangle()], ill-typed but of static type [Rectangle]. *)
Definition new_rectangle_empty : JavaExpression :=
  JavaConstructorCall RECTANGLE [].

(** [new Size(3.0)] *)
Lemma constructor_call_wrong_arity_witness :
  @is_instantiable universe SIZE = true
  /\ check_types new_size_short
     = raise JavaArgumentCountError
         "Wrong number of arguments for Size constructor: expected 2, got 1".
Proof.
  split; [reflexivity |].
  apply (constructor_call_wrong_arity (U := universe) SIZE [num "3.0"]);
    [reflexivity | simpl; lia].
Defined.

(** [new Rectangle(new Point(1.0), new Point(1.0, 2.0))]: the error is
    about the second argument, not about the ill-typed first one. *)
Lemma constructor_call_first_mismatch_witness :
  raises (check_types new_point_short) = true
  /\ static_type new_point_short = Some POINT
  /\ @is_subtype_of universe POINT SIZE = false
  /\ check_types (JavaConstructorCall RECTANGLE [new_point_short; new_point])
     = raise JavaTypeMismatchError
         "Rectangle constructor expects arguments of type Size, but got Point".
Proof.
  repeat (split; [reflexivity |]).
  apply (constructor_call_first_mismatch (U := universe) RECTANGLE
           [new_point_short] new_point [] [POINT] SIZE [] POINT);
    try reflexivity.
  apply Forall2_cons; [| apply Forall2_nil].
  exists POINT. split; reflexivity.
Defined.

(** [new Rectangle(new Point(1.0, 2.0), rect.moveTo(..))]: the second
    argument is a method call. *)
Lemma constructor_call_untyped_argument_witness :
  static_type rect_move = None
  /\ check_types (JavaConstructorCall RECTANGLE [new_point; rect_move])
     = raise AttributeError
         "'NoneType' object has no attribute 'is_subtype_of'"
  /\ exists pre b post ppre p ppost,
       [new_point; rect_move] = (pre ++ b :: post)%list
       /\ param_types (@constructor universe RECTANGLE)
          = (ppre ++ p :: ppost)%list
       /\ signature_matches pre ppre
       /\ (b = rect_move \/ In rect_move post)
       /\ ((static_type b = None
            /\ check_types
                 (JavaConstructorCall RECTANGLE [new_point; rect_move])
               = raise AttributeError
                   "'NoneType' object has no attribute 'is_subtype_of'")
           \/ (exists tb,
                  static_type b = Some tb
                  /\ is_subtype_of tb p = false
                  /\ In rect_move post
                  /\ check_types
                       (JavaConstructorCall RECTANGLE [new_point; rect_move])
                     = raise JavaTypeMismatchError
                         (name RECTANGLE
                            ++ " constructor expects arguments of type "
                            ++ name p ++ ", but got " ++ name tb))).
Proof.
  split; [reflexivity | split; [reflexivity |]].
  apply (constructor_call_untyped_argument (U := universe) RECTANGLE
           [new_point; rect_move] rect_move);
    [reflexivity | reflexivity | right; left; reflexivity | reflexivity].
Defined.

(** [rect.resize(new Point(1.0, 2.0), rect.moveTo(..))]: the first
    argument does not fit, and the second has no type to print. *)
Lemma method_call_untyped_argument_witness :
  static_type rect = Some RECTANGLE
  /\ @method_named universe RECTANGLE "resize"
     = Some {| parameter_types := [DOUBLE; DOUBLE] |}
  /\ static_type rect_move = None
  /\ exists msg,
       check_types (JavaMethodCall rect "resize" [new_point; rect_move])
       = raise AttributeError msg.
Proof.
  repeat (split; [reflexivity |]).
  apply (method_call_untyped_argument (U := universe) rect "resize"
           [new_point; rect_move] RECTANGLE
           {| parameter_types := [DOUBLE; DOUBLE] |} rect_move);
    [reflexivity | reflexivity | reflexivity | right; left; reflexivity
    | reflexivity].
Defined.

(** [rect.resize(1.0, new Point(1.0, 2.0))] *)
Lemma method_call_mismatch_text_names_witness :
  _names (U := universe) [DOUBLE; DOUBLE] = "(double, double)"
  /\ _names (U := universe) [DOUBLE; POINT] = "(double, Point)"
  /\ check_types (JavaMethodCall rect "resize" [num "1.0"; new_point])
     = raise JavaTypeMismatchError
         "Rectangle.resize() expects arguments of type (double, double), but got (double, Point)".
Proof.
  split; [reflexivity | split; [reflexivity |]].
  apply (method_call_mismatch_text_names (U := universe) rect "resize"
           [num "1.0"; new_point] RECTANGLE
           {| parameter_types := [DOUBLE; DOUBLE] |} [DOUBLE; POINT]
           1 POINT DOUBLE); reflexivity.
Defined.

(** [shape = new Rectangle()]: the right-hand side is ill-typed, its
    static type fits, and the assignment passes. *)
Lemma assignment_reads_static_type_only_witness :
  raises (check_types new_rectangle_empty) = true
  /\ check_types (JavaAssignment shape_var new_rectangle_empty)
     = Return tt.
Proof.
  split; [reflexivity |].
  apply (proj2 (assignment_reads_static_type_only (U := universe)
                  shape_var new_rectangle_empty)
           RECTANGLE); reflexivity.
Defined.

(** [new Rectangle(new Point(1.0, 2.0), new Size(3.0))]: every operand
    is typed; the check fails, with a [JavaTypeError]. *)
Lemma typed_operands_honour_contract_witness :
  operands_typed (JavaConstructorCall RECTANGLE [new_point; new_size_short])
  = true
  /\ raises
       (check_types (JavaConstructorCall RECTANGLE [new_point; new_size_short]))
     = true
  /\ honours_contract
       (check_types (JavaConstructorCall RECTANGLE [new_point; new_size_short]))
     = true.
Proof.
  split; [reflexivity | split; [reflexivity |]].
  apply (typed_operands_honour_contract (U := universe)); reflexivity.
Defined.

(** [shape = rect.moveTo(..)] *)
Lemma check_types_exceptions_witness :
  check_types (JavaAssignment shape_var rect_move)
  = raise AttributeError "'NoneType' object has no attribute 'is_subtype_of'"
  /\ (is_java_type_error AttributeError = true
      \/ none_attribute_error
           (Exception AttributeError
              "'NoneType' object has no attribute 'is_subtype_of'")).
Proof.
  split; [reflexivity |].
  apply (check_types_exceptions (U := universe)
           (JavaAssignment shape_var rect_move)
           (Exception AttributeError
              "'NoneType' object has no attribute 'is_subtype_of'"));
    reflexivity.
Defined.

(** [new Rectangle(new Point(1.0, 2.0), new Size(3.0, 4.0))] passes, and
    so does a call on any receiver that is itself a method call. *)
Example nested_constructor_calls_pass :
  check_types (JavaConstructorCall RECTANGLE [new_point; new_size])
  = Return tt.
Proof. reflexivity. Qed.

Example chained_call_passes :
  check_types (JavaMethodCall rect_move "noSuchMethod" [new_shape])
  = Return tt.
Proof. reflexivity. Qed.

End GeometryScenarios.
